(** * Pure-pursuit path tracker (me5413_world/path_tracker_node.cpp)

    A shallow embedding of [PathTrackerNode]: the ROS messages it reads and
    writes, its two subscriber callbacks and the control law
    ([computeControlOutputs], [computeDistance], [computeThrottle],
    [computeSteering], [computeLookaheadDistance]).

    Numbers.  The control law is embedded twice.  In the first embedding a
    C++ [double] is a real number of [R]: arithmetic is exact, and the values
    a binary64 has besides the reals (NaN, the infinities, signed zero) are
    outside the model.  [std::sqrt] and [std::atan] are the Standard
    Library's [sqrt] and [atan]; [std::atan2], [std::min] and [std::max] are
    defined below from their C++ meaning.  In the second, [Binary64], a
    [double] is a binary64 float of the kernel, with its rounding, overflow,
    infinities and NaN, and [std::atan], [std::atan2] and [tf2::getYaw] are
    parameters; what NaN or overflow decides is stated there.

    Effects.  [ROS_INFO] lines are collected by a writer monad [Log]; the
    node's members and its publisher are fields of [NodeState]; indexing a
    [std::vector] out of range has no defined behaviour and is [None]. *)

From Stdlib Require Import Floats ZArith.
From Stdlib Require Import Reals Lra Lia List String.
Import ListNotations.

Open Scope R_scope.

(** ** Messages (geometry_msgs, nav_msgs, std_msgs) *)

Record Point := mkPoint { Point_x : R; Point_y : R; Point_z : R }.

Record Quaternion := mkQuaternion
  { Quaternion_x : R; Quaternion_y : R; Quaternion_z : R; Quaternion_w : R }.

Record Pose := mkPose { position : Point; orientation : Quaternion }.

Record Vector3 := mkVector3 { Vector3_x : R; Vector3_y : R; Vector3_z : R }.

Record Twist := mkTwist { linear : Vector3; angular : Vector3 }.

Record Header := mkHeader { seq : nat; stamp : nat * nat; frame_id : string }.

Record PoseWithCovariance := mkPoseWithCovariance
  { pwc_pose : Pose; pwc_covariance : list R }.

Record TwistWithCovariance := mkTwistWithCovariance
  { twc_twist : Twist; twc_covariance : list R }.

Record Odometry := mkOdometry
  { odom_header : Header;
    child_frame_id : string;
    odom_pose : PoseWithCovariance;
    odom_twist : TwistWithCovariance }.

Record PoseStamped := mkPoseStamped { ps_header : Header; ps_pose : Pose }.

Record Path := mkPath { path_header : Header; poses : list PoseStamped }.

(** A default-constructed message has every number zero and every string
    and sequence empty. *)

Definition Vector3_default : Vector3 := mkVector3 0 0 0.
Definition Twist_default : Twist := mkTwist Vector3_default Vector3_default.
Definition Point_default : Point := mkPoint 0 0 0.
Definition Quaternion_default : Quaternion := mkQuaternion 0 0 0 0.
Definition Pose_default : Pose := mkPose Point_default Quaternion_default.
Definition Header_default : Header := mkHeader 0 (0%nat, 0%nat) EmptyString.
Definition Odometry_default : Odometry :=
  mkOdometry Header_default EmptyString
    (mkPoseWithCovariance Pose_default (repeat 0 36))
    (mkTwistWithCovariance Twist_default (repeat 0 36)).

(** Assignments to one member of a [Twist], as in [cmd_vel.linear.x = v]. *)

Definition set_linear_x (t : Twist) (v : R) : Twist :=
  mkTwist (mkVector3 v (Vector3_y (linear t)) (Vector3_z (linear t))) (angular t).

Definition set_angular_z (t : Twist) (v : R) : Twist :=
  mkTwist (linear t) (mkVector3 (Vector3_x (angular t)) (Vector3_y (angular t)) v).

(** ** tf2::Vector3 and tf2::fromMsg *)

Module tf2.

Record Vector3 := mkVector3 { getX : R; getY : R; getZ : R }.

Definition fromMsg (p : Point) : Vector3 :=
  mkVector3 (Point_x p) (Point_y p) (Point_z p).

End tf2.

(** ** The C++ library functions the controller calls *)

(** [std::min(a, b)] is [(b < a) ? b : a]. *)
Definition std_min (a b : R) : R := if Rlt_dec b a then b else a.

(** [std::max(a, b)] is [(a < b) ? b : a]. *)
Definition std_max (a b : R) : R := if Rlt_dec a b then b else a.

(** [std::atan2(y, x)]: the angle of the point [(x, y)], in (-PI, PI]. *)
Definition atan2 (y x : R) : R :=
  if Rlt_dec 0 x then atan (y / x)
  else if Rlt_dec x 0 then
         if Rle_dec 0 y then atan (y / x) + PI else atan (y / x) - PI
  else if Rlt_dec 0 y then PI / 2
  else if Rlt_dec y 0 then - PI / 2
  else 0.

(** A [bool] used in arithmetic is promoted to 1.0 or 0.0. *)
Definition bool_to_double (b : bool) : R := if b then 1 else 0.

(** [tf2::getYaw] on a quaternion message (tf2/impl/utils.h); the node is
    verified for any yaw extraction, this one instantiates it. *)
Definition tf2_getYaw (q : Quaternion) : R :=
  let sqw := Quaternion_w q * Quaternion_w q in
  let sqx := Quaternion_x q * Quaternion_x q in
  let sqy := Quaternion_y q * Quaternion_y q in
  let sqz := Quaternion_z q * Quaternion_z q in
  let sarg := -2 * (Quaternion_x q * Quaternion_z q - Quaternion_w q * Quaternion_y q)
              / (sqx + sqy + sqz + sqw) in
  if Rle_dec sarg (-0.99999) then -2 * atan2 (Quaternion_y q) (Quaternion_x q)
  else if Rge_dec sarg 0.99999 then 2 * atan2 (Quaternion_y q) (Quaternion_x q)
  else atan2 (2 * (Quaternion_x q * Quaternion_y q + Quaternion_w q * Quaternion_z q))
             (sqw + sqx - sqy - sqz).

(** ** ROS_INFO as a writer monad *)

Definition LogEntry : Type := string * R.

Definition Log (A : Type) : Type := A * list LogEntry.

Definition ret {A} (a : A) : Log A := (a, []).

Definition bind {A B} (m : Log A) (k : A -> Log B) : Log B :=
  let (a, l1) := m in let (b, l2) := k a in (b, l1 ++ l2).

Definition ROS_INFO (fmt : string) (v : R) : Log unit := (tt, [(fmt, v)]).

Definition value {A} (m : Log A) : A := fst m.
Definition output {A} (m : Log A) : list LogEntry := snd m.

Notation "x <- m ;; k" := (bind m (fun x => k))
  (at level 61, m at next level, right associativity).
Notation "m ;;; k" := (bind m (fun _ => k))
  (at level 61, right associativity).

(** ** Dynamic parameters (the globals set by [dynamicParamCallback]) *)

Record Params := mkParams
  { MAX_THROTTLE : R;
    THROTTLE_GAIN : R;
    ROBOT_LENGTH : R;
    DEFAULT_LOOKAHEAD_DISTANCE : bool }.

(** Modelled from the spec: the generated type [path_trackerConfig] that
    [dynamicParamCallback] reads is not among the sources; its fields are the
    four of the parameter channel, [lookahead_distance] being the flag the
    spec says it is. *)
Record path_trackerConfig := mkConfig
  { max_throttle : R;
    throttle_gain : R;
    robot_length : R;
    lookahead_distance : bool }.

Definition dynamicParamCallback (config : path_trackerConfig) (level : nat) : Params :=
  {| MAX_THROTTLE := max_throttle config;
     THROTTLE_GAIN := throttle_gain config;
     ROBOT_LENGTH := robot_length config;
     DEFAULT_LOOKAHEAD_DISTANCE := lookahead_distance config |}.

(** ** The control law *)

Definition computeDistance (p1 p2 : Point) : R :=
  let dx := Point_x p2 - Point_x p1 in
  let dy := Point_y p2 - Point_y p1 in
  sqrt (dx * dx + dy * dy).

Definition computeThrottle (P : Params) (distance_to_goal : R) : R :=
  std_min (MAX_THROTTLE P) (distance_to_goal * THROTTLE_GAIN P).

Definition computeLookaheadDistance (P : Params) (odom_robot : Odometry) : R :=
  let velocity := Vector3_x (linear (twc_twist (odom_twist odom_robot))) in
  std_max 1.0 (velocity * bool_to_double (DEFAULT_LOOKAHEAD_DISTANCE P)).

(** The two conditionals of [computeSteering], on the variable each one
    updates: the fold of [alpha] and the limit on [steering]. *)

Definition fold_alpha (alpha : R) : R :=
  if Rgt_dec alpha (PI / 2) then alpha - PI
  else if Rlt_dec alpha (- PI / 2) then alpha + PI
  else alpha.

Definition MAX_STEERING_ANGLE : R := 0.5.

Definition limit_steering (steering : R) : R :=
  if Rgt_dec steering MAX_STEERING_ANGLE then MAX_STEERING_ANGLE
  else if Rlt_dec steering (- MAX_STEERING_ANGLE) then - MAX_STEERING_ANGLE
  else steering.

(** The local variables of [computeSteering]; [alpha] and [steering] are
    assigned twice and have a field for each value. *)
Record SteeringLocals := mkSteeringLocals
  { yaw_robot : R;
    yaw_goal : R;
    heading_error : R;
    point_robot : tf2.Vector3;
    point_goal : tf2.Vector3;
    dx : R;
    dy : R;
    cross_track_error : R;
    alpha_raw : R;
    alpha : R;
    lookahead_distance_ : R;
    steering_raw : R;
    steering : R }.

Section Controller.

(** [tf2::getYaw], the yaw of an orientation. *)
Variable getYaw : Quaternion -> R.

Definition steeringLocals (P : Params) (odom_robot : Odometry) (pose_goal : Pose)
  : SteeringLocals :=
  let yaw_robot := getYaw (orientation (pwc_pose (odom_pose odom_robot))) in
  let yaw_goal := getYaw (orientation pose_goal) in
  let heading_error := yaw_goal - yaw_robot in
  let point_robot := tf2.fromMsg (position (pwc_pose (odom_pose odom_robot))) in
  let point_goal := tf2.fromMsg (position pose_goal) in
  let dx := tf2.getX point_goal - tf2.getX point_robot in
  let dy := tf2.getY point_goal - tf2.getY point_robot in
  let cross_track_error := sqrt (dx * dx + dy * dy) in
  let alpha_raw := atan2 dy dx - yaw_robot in
  let alpha := fold_alpha alpha_raw in
  let lookahead_distance := computeLookaheadDistance P odom_robot in
  let steering_raw :=
    atan ((2.0 * ROBOT_LENGTH P * cross_track_error) / lookahead_distance) + alpha in
  let steering := limit_steering steering_raw in
  mkSteeringLocals yaw_robot yaw_goal heading_error point_robot point_goal dx dy
    cross_track_error alpha_raw alpha lookahead_distance steering_raw steering.

Definition computeSteering (P : Params) (odom_robot : Odometry) (pose_goal : Pose)
  : Log R :=
  let v := steeringLocals P odom_robot pose_goal in
  ROS_INFO "Yaw Robot: %f" (yaw_robot v) ;;;
  ROS_INFO "Yaw Goal: %f" (yaw_goal v) ;;;
  ROS_INFO "Heading Error: %f" (heading_error v) ;;;
  ROS_INFO "Cross-track Error: %f" (cross_track_error v) ;;;
  ROS_INFO "Alpha: %f" (alpha v) ;;;
  ROS_INFO "Lookahead Distance: %f" (lookahead_distance_ v) ;;;
  ROS_INFO "Computed Steering Angle: %f" (steering v) ;;;
  ROS_INFO "Throttle: %f"
    (computeThrottle P
       (computeDistance (position (pwc_pose (odom_pose odom_robot))) (position pose_goal))) ;;;
  ret (steering v).

Definition computeControlOutputs (P : Params) (odom_robot : Odometry) (pose_goal : Pose)
  : Log Twist :=
  let distance_to_goal :=
    computeDistance (position (pwc_pose (odom_pose odom_robot))) (position pose_goal) in
  ROS_INFO "distance to goal: %f" distance_to_goal ;;;
  let throttle := computeThrottle P distance_to_goal in
  steering <- computeSteering P odom_robot pose_goal ;;
  let cmd_vel := Twist_default in
  let cmd_vel := set_linear_x cmd_vel throttle in
  let cmd_vel := set_angular_z cmd_vel steering in
  ret cmd_vel.

(** ** The node: members, publisher, callbacks *)

Record NodeState := mkNodeState
  { params : Params;
    robot_frame_ : string;
    world_frame_ : string;
    odom_world_robot_ : Odometry;
    pose_world_goal_ : Pose;
    pub_cmd_vel_ : list Twist;
    rosout : list LogEntry }.

(** The constructor; [server.setCallback] calls [dynamicParamCallback] at
    once with the server's configuration. *)
Definition PathTrackerNode (config0 : path_trackerConfig) : NodeState :=
  {| params := dynamicParamCallback config0 0;
     robot_frame_ := "base_link";
     world_frame_ := "world";
     odom_world_robot_ := Odometry_default;
     pose_world_goal_ := Pose_default;
     pub_cmd_vel_ := [];
     rosout := [] |}.

Definition reconfigure (config : path_trackerConfig) (level : nat) (st : NodeState)
  : NodeState :=
  {| params := dynamicParamCallback config level;
     robot_frame_ := robot_frame_ st;
     world_frame_ := world_frame_ st;
     odom_world_robot_ := odom_world_robot_ st;
     pose_world_goal_ := pose_world_goal_ st;
     pub_cmd_vel_ := pub_cmd_vel_ st;
     rosout := rosout st |}.

Definition robotOdomCallback (odom : Odometry) (st : NodeState) : NodeState :=
  {| params := params st;
     robot_frame_ := child_frame_id odom;
     world_frame_ := frame_id (odom_header odom);
     odom_world_robot_ := odom;
     pose_world_goal_ := pose_world_goal_ st;
     pub_cmd_vel_ := pub_cmd_vel_ st;
     rosout := rosout st |}.

(** [path->poses[11]] on a vector of fewer than 12 poses has no defined
    behaviour: the callback then has no result. *)
Definition localPathCallback (path : Path) (st : NodeState) : option NodeState :=
  match nth_error (poses path) 11 with
  | None => None
  | Some p =>
      let goal := ps_pose p in
      let cmd := computeControlOutputs (params st) (odom_world_robot_ st) goal in
      Some {| params := params st;
              robot_frame_ := robot_frame_ st;
              world_frame_ := world_frame_ st;
              odom_world_robot_ := odom_world_robot_ st;
              pose_world_goal_ := goal;
              pub_cmd_vel_ := pub_cmd_vel_ st ++ [value cmd];
              rosout := rosout st ++ output cmd |}
  end.

(** What [ros::spin] delivers, one message at a time. *)
Inductive Event :=
| Reconfigure (config : path_trackerConfig) (level : nat)
| OdomMsg (odom : Odometry)
| PathMsg (path : Path).

Definition step (e : Event) (st : NodeState) : option NodeState :=
  match e with
  | Reconfigure config level => Some (reconfigure config level st)
  | OdomMsg odom => Some (robotOdomCallback odom st)
  | PathMsg path => localPathCallback path st
  end.

Fixpoint spin (evs : list Event) (st : NodeState) : option NodeState :=
  match evs with
  | [] => Some st
  | e :: evs' =>
      match step e st with
      | None => None
      | Some st' => spin evs' st'
      end
  end.

(** The odometry message and the parameters in force after [evs]. *)
Fixpoint latest_odom (evs : list Event) (o : Odometry) : Odometry :=
  match evs with
  | [] => o
  | OdomMsg odom :: evs' => latest_odom evs' odom
  | _ :: evs' => latest_odom evs' o
  end.

Fixpoint latest_params (evs : list Event) (P : Params) : Params :=
  match evs with
  | [] => P
  | Reconfigure config level :: evs' => latest_params evs' (dynamicParamCallback config level)
  | _ :: evs' => latest_params evs' P
  end.

End Controller.

(** * The control law in binary64 *)

Module Binary64.

Local Open Scope float_scope.

(** ** Messages *)

Record Point := mkPoint { Point_x : float; Point_y : float; Point_z : float }.

Record Quaternion := mkQuaternion
  { Quaternion_x : float; Quaternion_y : float; Quaternion_z : float;
    Quaternion_w : float }.

Record Pose := mkPose { position : Point; orientation : Quaternion }.

Record Vector3 := mkVector3 { Vector3_x : float; Vector3_y : float; Vector3_z : float }.

Record Twist := mkTwist { linear : Vector3; angular : Vector3 }.

Record PoseWithCovariance := mkPoseWithCovariance
  { pwc_pose : Pose; pwc_covariance : list float }.

Record TwistWithCovariance := mkTwistWithCovariance
  { twc_twist : Twist; twc_covariance : list float }.

Record Odometry := mkOdometry
  { odom_header : Header;
    child_frame_id : string;
    odom_pose : PoseWithCovariance;
    odom_twist : TwistWithCovariance }.

Definition Vector3_default : Vector3 := mkVector3 0 0 0.
Definition Twist_default : Twist := mkTwist Vector3_default Vector3_default.

Definition set_linear_x (t : Twist) (v : float) : Twist :=
  mkTwist (mkVector3 v (Vector3_y (linear t)) (Vector3_z (linear t))) (angular t).

Definition set_angular_z (t : Twist) (v : float) : Twist :=
  mkTwist (linear t) (mkVector3 (Vector3_x (angular t)) (Vector3_y (angular t)) v).

Module tf2.

Record Vector3 := mkVector3 { getX : float; getY : float; getZ : float }.

Definition fromMsg (p : Point) : Vector3 :=
  mkVector3 (Point_x p) (Point_y p) (Point_z p).

End tf2.

(** ** Library functions and constants *)

(** [std::min(a, b)] is [(b < a) ? b : a]. *)
Definition std_min (a b : float) : float := if b <? a then b else a.

(** [std::max(a, b)] is [(a < b) ? b : a]. *)
Definition std_max (a b : float) : float := if a <? b then b else a.

Definition bool_to_double (b : bool) : float := if b then 1 else 0.

(** [M_PI] of math.h, 3.14159265358979323846 as a binary64. *)
Definition M_PI : float := 0x1.921fb54442d18p+1.

(** ** ROS_INFO *)

Definition LogEntry : Type := string * float.

Definition Log (A : Type) : Type := A * list LogEntry.

Definition ret {A} (a : A) : Log A := (a, []).

Definition bind {A B} (m : Log A) (k : A -> Log B) : Log B :=
  let (a, l1) := m in let (b, l2) := k a in (b, l1 ++ l2).

Definition ROS_INFO (fmt : string) (v : float) : Log unit := (tt, [(fmt, v)]).

Definition value {A} (m : Log A) : A := fst m.
Definition output {A} (m : Log A) : list LogEntry := snd m.

#[local, warnings="-notation-overridden"]
Notation "x <- m ;; k" := (bind m (fun x => k))
  (at level 61, m at next level, right associativity).
#[local, warnings="-notation-overridden"]
Notation "m ;;; k" := (bind m (fun _ => k))
  (at level 61, right associativity).

(** ** Parameters and control law *)

Record Params := mkParams
  { MAX_THROTTLE : float;
    THROTTLE_GAIN : float;
    ROBOT_LENGTH : float;
    DEFAULT_LOOKAHEAD_DISTANCE : bool }.

Definition computeDistance (p1 p2 : Point) : float :=
  let dx := Point_x p2 - Point_x p1 in
  let dy := Point_y p2 - Point_y p1 in
  PrimFloat.sqrt (dx * dx + dy * dy).

Definition computeThrottle (P : Params) (distance_to_goal : float) : float :=
  std_min (MAX_THROTTLE P) (distance_to_goal * THROTTLE_GAIN P).

Definition computeLookaheadDistance (P : Params) (odom_robot : Odometry) : float :=
  let velocity := Vector3_x (linear (twc_twist (odom_twist odom_robot))) in
  std_max 1.0 (velocity * bool_to_double (DEFAULT_LOOKAHEAD_DISTANCE P)).

(** [alpha > M_PI / 2] is [M_PI / 2 < alpha], also on NaN. *)
Definition fold_alpha (alpha : float) : float :=
  if M_PI / 2 <? alpha then alpha - M_PI
  else if alpha <? - M_PI / 2 then alpha + M_PI
  else alpha.

Definition MAX_STEERING_ANGLE : float := 0.5.

Definition limit_steering (steering : float) : float :=
  if MAX_STEERING_ANGLE <? steering then MAX_STEERING_ANGLE
  else if steering <? - MAX_STEERING_ANGLE then - MAX_STEERING_ANGLE
  else steering.

Record SteeringLocals := mkSteeringLocals
  { yaw_robot : float;
    yaw_goal : float;
    heading_error : float;
    point_robot : tf2.Vector3;
    point_goal : tf2.Vector3;
    dx : float;
    dy : float;
    cross_track_error : float;
    alpha_raw : float;
    alpha : float;
    lookahead_distance_ : float;
    steering_raw : float;
    steering : float }.

Section Libm.

(** [std::atan], [std::atan2] and [tf2::getYaw]. *)
Variable atan : float -> float.
Variable atan2 : float -> float -> float.
Variable getYaw : Quaternion -> float.

Definition steeringLocals (P : Params) (odom_robot : Odometry) (pose_goal : Pose)
  : SteeringLocals :=
  let yaw_robot := getYaw (orientation (pwc_pose (odom_pose odom_robot))) in
  let yaw_goal := getYaw (orientation pose_goal) in
  let heading_error := yaw_goal - yaw_robot in
  let point_robot := tf2.fromMsg (position (pwc_pose (odom_pose odom_robot))) in
  let point_goal := tf2.fromMsg (position pose_goal) in
  let dx := tf2.getX point_goal - tf2.getX point_robot in
  let dy := tf2.getY point_goal - tf2.getY point_robot in
  let cross_track_error := PrimFloat.sqrt (dx * dx + dy * dy) in
  let alpha_raw := atan2 dy dx - yaw_robot in
  let alpha := fold_alpha alpha_raw in
  let lookahead_distance := computeLookaheadDistance P odom_robot in
  let steering_raw :=
    atan ((2.0 * ROBOT_LENGTH P * cross_track_error) / lookahead_distance) + alpha in
  let steering := limit_steering steering_raw in
  mkSteeringLocals yaw_robot yaw_goal heading_error point_robot point_goal dx dy
    cross_track_error alpha_raw alpha lookahead_distance steering_raw steering.

Definition computeSteering (P : Params) (odom_robot : Odometry) (pose_goal : Pose)
  : Log float :=
  let v := steeringLocals P odom_robot pose_goal in
  ROS_INFO "Yaw Robot: %f" (yaw_robot v) ;;;
  ROS_INFO "Yaw Goal: %f" (yaw_goal v) ;;;
  ROS_INFO "Heading Error: %f" (heading_error v) ;;;
  ROS_INFO "Cross-track Error: %f" (cross_track_error v) ;;;
  ROS_INFO "Alpha: %f" (alpha v) ;;;
  ROS_INFO "Lookahead Distance: %f" (lookahead_distance_ v) ;;;
  ROS_INFO "Computed Steering Angle: %f" (steering v) ;;;
  ROS_INFO "Throttle: %f"
    (computeThrottle P
       (computeDistance (position (pwc_pose (odom_pose odom_robot))) (position pose_goal))) ;;;
  ret (steering v).

Definition computeControlOutputs (P : Params) (odom_robot : Odometry) (pose_goal : Pose)
  : Log Twist :=
  let distance_to_goal :=
    computeDistance (position (pwc_pose (odom_pose odom_robot))) (position pose_goal) in
  ROS_INFO "distance to goal: %f" distance_to_goal ;;;
  let throttle := computeThrottle P distance_to_goal in
  steering <- computeSteering P odom_robot pose_goal ;;
  let cmd_vel := Twist_default in
  let cmd_vel := set_linear_x cmd_vel throttle in
  let cmd_vel := set_angular_z cmd_vel steering in
  ret cmd_vel.

End Libm.

(** ** Vocabulary and scenarios *)

(** A number between -0.5 and 0.5; NaN is not. *)
Definition within_limit (s : float) : Prop :=
  (- 0.5 <=? s) = true /\ (s <=? 0.5) = true.

(** A library function that returns NaN on NaN, as C requires of [atan]. *)
Definition propagates_nan (f : float -> float) : Prop :=
  forall x : float, is_nan x = true -> is_nan (f x) = true.

(** The results C fixes for [atan] and [atan2] at zero arguments, and NaN
    elsewhere: enough of the library to run the controller on the goal. *)
Definition atan_at_zero (x : float) : float := if is_zero x then x else nan.

Definition atan2_at_zero (y x : float) : float :=
  match classify y, classify x with
  | PZero, PZero => y
  | _, _ => nan
  end.

Definition yaw_zero (q : Quaternion) : float := 0.

Definition odom_origin : Odometry :=
  mkOdometry Header_default EmptyString
    (mkPoseWithCovariance (mkPose (mkPoint 0 0 0) (mkQuaternion 0 0 0 1)) (repeat 0 36))
    (mkTwistWithCovariance Twist_default (repeat 0 36)).

Definition goal_at_origin : Pose := mkPose (mkPoint 0 0 0) (mkQuaternion 0 0 0 1).

(** A goal at x = 1e200 (the nearest binary64), whose squared distance
    overflows. *)
Definition goal_far : Pose :=
  mkPose (mkPoint 0x1.4e718d7d7625ap+664 0 0) (mkQuaternion 0 0 0 1).

Definition params_demo : Params := mkParams 1 0.5 0.5 true.

(** [ROBOT_LENGTH] 0, and [ROBOT_LENGTH] 1e308 (the nearest binary64). *)
Definition params_zero_length : Params := mkParams 1 0.5 0 false.

Definition params_long : Params := mkParams 1 0.5 0x1.1ccf385ebc8ap+1023 false.

End Binary64.

(** ** The spec's formula and the scenarios used below *)

(** The pure-pursuit formula in the spec's words. *)
Definition spec_steering (wheelbase crossTrackError lookaheadDistance alpha : R) : R :=
  atan ((2 * wheelbase * crossTrackError) / lookaheadDistance) + alpha.

(** A vehicle at the origin that faces the negative x axis (yaw PI), and a
    goal ahead of it to its right. *)
Definition odom_facing_back : Odometry :=
  mkOdometry Header_default EmptyString
    (mkPoseWithCovariance (mkPose (mkPoint 0 0 0) (mkQuaternion 0 0 1 0)) (repeat 0 36))
    (mkTwistWithCovariance Twist_default (repeat 0 36)).

Definition goal_ahead_right : Pose := mkPose (mkPoint (-1) (-1) 0) (mkQuaternion 0 0 0 1).

(** A vehicle at the origin with heading 0 and a goal straight behind it. *)
Definition odom_at_origin : Odometry :=
  mkOdometry Header_default EmptyString
    (mkPoseWithCovariance (mkPose (mkPoint 0 0 0) (mkQuaternion 0 0 0 1)) (repeat 0 36))
    (mkTwistWithCovariance Twist_default (repeat 0 36)).

Definition goal_behind : Pose := mkPose (mkPoint (-5) 0 0) (mkQuaternion 0 0 0 1).

(** A vehicle at the origin with the unit quaternion (0, 0, 0.96, 0.28), a
    heading of about 147 degrees; [goal_ahead_right] is then about 78
    degrees to its left. *)
Definition odom_heading_147 : Odometry :=
  mkOdometry Header_default EmptyString
    (mkPoseWithCovariance (mkPose (mkPoint 0 0 0) (mkQuaternion 0 0 0.96 0.28)) (repeat 0 36))
    (mkTwistWithCovariance Twist_default (repeat 0 36)).

Definition goal_behind_turned : Pose := mkPose (mkPoint (-5) 0 0) (mkQuaternion 0 0 1 0).

Definition params_demo : Params := mkParams 1 0.5 0.5 true.

Definition config_demo : path_trackerConfig := mkConfig 1 0.5 0.5 true.

(** A local path of 12 waypoints: eleven at the origin, then [goal_behind]. *)
Definition path_demo : Path :=
  mkPath Header_default
    (repeat (mkPoseStamped Header_default Pose_default) 11
     ++ [mkPoseStamped Header_default goal_behind]).

(** The spec's scenario of a goal 10 ahead of the vehicle at the origin. *)
Definition goal_ahead : Pose := mkPose (mkPoint 10 0 0) (mkQuaternion 0 0 0 1).

(** [odom_at_origin] again, but 3 above the plane and with frame names. *)
Definition odom_at_origin_tagged : Odometry :=
  mkOdometry (mkHeader 7 (1%nat, 0%nat) "world") "base_link"
    (mkPoseWithCovariance (mkPose (mkPoint 0 0 3) (mkQuaternion 0 0 0 1)) (repeat 0 36))
    (mkTwistWithCovariance Twist_default (repeat 0 36)).

(** A longer path with the same pose at index 11 as [path_demo]. *)
Definition path_demo_longer : Path :=
  mkPath (mkHeader 1 (0%nat, 0%nat) "world")
    (poses path_demo ++ [mkPoseStamped Header_default goal_ahead]).

(** ** Vocabulary for the node's traces *)

Definition is_PathMsg (e : Event) : bool :=
  match e with PathMsg _ => true | _ => false end.

Definition is_OdomMsg (e : Event) : bool :=
  match e with OdomMsg _ => true | _ => false end.

Definition evs_demo : list Event :=
  [OdomMsg odom_at_origin_tagged; PathMsg path_demo; Reconfigure config_demo 0;
   PathMsg path_demo_longer].

(** A command that sets the throttle and the steering only. *)
Definition only_throttle_and_steering (cmd : Twist) : Prop :=
  Vector3_y (linear cmd) = 0 /\ Vector3_z (linear cmd) = 0
  /\ Vector3_x (angular cmd) = 0 /\ Vector3_y (angular cmd) = 0.

(** The frame names agree with the stored odometry. *)
Definition frames_of_odom (st : NodeState) : Prop :=
  world_frame_ st = frame_id (odom_header (odom_world_robot_ st))
  /\ robot_frame_ st = child_frame_id (odom_world_robot_ st).

(** * Properties *)

(** Case analysis on the comparisons of a conditional; [lra] closes the
    branches the hypotheses exclude. *)
Ltac split_cmp :=
  repeat match goal with
         | |- context [Rlt_dec ?a ?b] => destruct (Rlt_dec a b)
         | |- context [Rgt_dec ?a ?b] => destruct (Rgt_dec a b)
         | |- context [Rle_dec ?a ?b] => destruct (Rle_dec a b)
         | |- context [Rge_dec ?a ?b] => destruct (Rge_dec a b)
         end.

Ltac by_cases := split_cmp; try lra.

Lemma std_min_Rmin (a b : R) : std_min a b = Rmin a b.
Proof.
  unfold std_min, Rmin.
  destruct (Rlt_dec b a), (Rle_dec a b); lra.
Qed.

Lemma std_max_Rmax (a b : R) : std_max a b = Rmax a b.
Proof.
  unfold std_max, Rmax.
  destruct (Rlt_dec a b), (Rle_dec a b); lra.
Qed.

Lemma limit_steering_range (s : R) : - 0.5 <= limit_steering s <= 0.5.
Proof.
  unfold limit_steering, MAX_STEERING_ANGLE.
  by_cases.
Qed.

Lemma atan2_neg_x_axis (x : R) : x < 0 -> atan2 0 x = PI.
Proof.
  intros Hx. unfold atan2.
  destruct (Rlt_dec 0 x); [lra|].
  destruct (Rlt_dec x 0); [|lra].
  destruct (Rle_dec 0 0); [|lra].
  unfold Rdiv. rewrite Rmult_0_l, atan_0. lra.
Qed.

Lemma atan2_pos_x_axis (x : R) : 0 < x -> atan2 0 x = 0.
Proof.
  intros Hx. unfold atan2.
  destruct (Rlt_dec 0 x); [|lra].
  unfold Rdiv. rewrite Rmult_0_l. apply atan_0.
Qed.

Lemma atan2_third_quadrant_diagonal (x : R) : x < 0 -> atan2 x x = - (3 * PI / 4).
Proof.
  intros Hx. unfold atan2.
  destruct (Rlt_dec 0 x); [lra|].
  destruct (Rlt_dec x 0); [|lra].
  destruct (Rle_dec 0 x); [lra|].
  replace (x / x) with 1 by (field; lra).
  rewrite atan_1. lra.
Qed.

(** [std::atan2] stays in (-PI, PI]. *)
Lemma atan2_range (y x : R) : - PI < atan2 y x <= PI.
Proof.
  pose proof PI_RGT_0 as Hpi.
  unfold atan2.
  destruct (Rlt_dec 0 x) as [Hx|Hx].
  - pose proof (atan_bound (y / x)). lra.
  - destruct (Rlt_dec x 0) as [Hx'|Hx'].
    + destruct (Rle_dec 0 y) as [Hy|Hy].
      * assert (y / x <= 0).
        { pose proof (Rinv_lt_0_compat x Hx'). unfold Rdiv. nra. }
        assert (atan (y / x) <= 0).
        { rewrite <- atan_0.
          destruct (Req_dec (y / x) 0) as [->|]; [lra|].
          apply Rlt_le, atan_increasing; lra. }
        pose proof (atan_bound (y / x)). lra.
      * assert (0 < y / x).
        { pose proof (Rinv_lt_0_compat x Hx'). unfold Rdiv. nra. }
        assert (0 < atan (y / x)).
        { rewrite <- atan_0. apply atan_increasing; lra. }
        pose proof (atan_bound (y / x)). lra.
    + by_cases.
Qed.

Lemma tf2_getYaw_identity : tf2_getYaw (mkQuaternion 0 0 0 1) = 0.
Proof.
  unfold tf2_getYaw; simpl.
  destruct (Rle_dec _ _) as [H|_]; [exfalso; lra|].
  destruct (Rge_dec _ _) as [H|_]; [exfalso; lra|].
  replace (2 * (0 * 0 + 1 * 0)) with 0 by ring.
  apply atan2_pos_x_axis. lra.
Qed.

Lemma tf2_getYaw_half_turn : tf2_getYaw (mkQuaternion 0 0 1 0) = PI.
Proof.
  unfold tf2_getYaw; simpl.
  destruct (Rle_dec _ _) as [H|_]; [exfalso; lra|].
  destruct (Rge_dec _ _) as [H|_]; [exfalso; lra|].
  replace (2 * (0 * 0 + 0 * 1)) with 0 by ring.
  apply atan2_neg_x_axis. lra.
Qed.

(** For a rotation about the z axis the yaw is the angle of
    [(w*w - z*z, 2*w*z)]. *)
Lemma tf2_getYaw_planar (z w : R) :
  0 < z * z + w * w ->
  tf2_getYaw (mkQuaternion 0 0 z w) = atan2 (2 * (w * z)) (w * w - z * z).
Proof.
  intros Hn. unfold tf2_getYaw; simpl.
  replace (-2 * (0 * z - w * 0) / (0 * 0 + 0 * 0 + z * z + w * w)) with 0
    by (field; lra).
  destruct (Rle_dec _ _) as [H|_]; [exfalso; lra|].
  destruct (Rge_dec _ _) as [H|_]; [exfalso; lra|].
  f_equal; ring.
Qed.

(** ** Throttle and lookahead *)

(** C2: with a positive throttle limit, a positive gain and a distance that
    is not negative, [computeThrottle] is the minimum of the limit and
    distance times gain, lies between 0 and the limit, and is the limit
    exactly when distance times gain reaches it. *)
Theorem computeThrottle_saturating_min (P : Params) (distance_to_goal : R) :
  MAX_THROTTLE P > 0 ->
  THROTTLE_GAIN P > 0 ->
  distance_to_goal >= 0 ->
  computeThrottle P distance_to_goal
    = Rmin (MAX_THROTTLE P) (distance_to_goal * THROTTLE_GAIN P)
  /\ 0 <= computeThrottle P distance_to_goal <= MAX_THROTTLE P
  /\ (computeThrottle P distance_to_goal = MAX_THROTTLE P
      <-> distance_to_goal * THROTTLE_GAIN P >= MAX_THROTTLE P).
Proof.
  intros Hmax Hgain Hd.
  assert (Hprod : 0 <= distance_to_goal * THROTTLE_GAIN P) by nra.
  split; [apply std_min_Rmin|].
  unfold computeThrottle, std_min.
  destruct (Rlt_dec (distance_to_goal * THROTTLE_GAIN P) (MAX_THROTTLE P));
    repeat split; intros; lra.
Qed.

(** C7: whatever the velocity and the lookahead flag, the lookahead distance
    is the maximum of 1.0 and velocity times the flag's number, so at least
    1.0. *)
Theorem computeLookaheadDistance_floor (P : Params) (odom_robot : Odometry) :
  computeLookaheadDistance P odom_robot >= 1.0
  /\ computeLookaheadDistance P odom_robot
     = Rmax 1.0 (Vector3_x (linear (twc_twist (odom_twist odom_robot)))
                 * bool_to_double (DEFAULT_LOOKAHEAD_DISTANCE P)).
Proof.
  unfold computeLookaheadDistance.
  rewrite std_max_Rmax. split; [|reflexivity].
  apply Rle_ge, Rmax_l.
Qed.

(** The flag is promoted to 1.0 or 0.0: the lookahead distance is
    [max(1.0, velocity)] when it is set and 1.0 when it is not. *)
Lemma computeLookaheadDistance_flag (P : Params) (odom_robot : Odometry) :
  computeLookaheadDistance P odom_robot
  = if DEFAULT_LOOKAHEAD_DISTANCE P
    then Rmax 1.0 (Vector3_x (linear (twc_twist (odom_twist odom_robot))))
    else 1.0.
Proof.
  unfold computeLookaheadDistance. rewrite std_max_Rmax.
  destruct (DEFAULT_LOOKAHEAD_DISTANCE P); simpl.
  - now rewrite Rmult_1_r.
  - rewrite Rmult_0_r. apply Rmax_left. lra.
Qed.

Section ControllerProperties.

Variable getYaw : Quaternion -> R.

Lemma computeSteering_value (P : Params) (odom_robot : Odometry) (pose_goal : Pose) :
  value (computeSteering getYaw P odom_robot pose_goal)
  = steering (steeringLocals getYaw P odom_robot pose_goal).
Proof. reflexivity. Qed.

Lemma computeControlOutputs_value (P : Params) (odom_robot : Odometry) (pose_goal : Pose) :
  value (computeControlOutputs getYaw P odom_robot pose_goal)
  = mkTwist
      (mkVector3
         (computeThrottle P
            (computeDistance (position (pwc_pose (odom_pose odom_robot)))
               (position pose_goal)))
         0 0)
      (mkVector3 0 0 (value (computeSteering getYaw P odom_robot pose_goal))).
Proof. reflexivity. Qed.

(** ** Steering *)

(** C4: before the limit is applied, the steering is
    [atan((2 * wheelbase * crossTrackError) / lookaheadDistance) + alpha]
    with the wheelbase [ROBOT_LENGTH], the cross-track error the distance
    from vehicle to goal, the lookahead of [computeLookaheadDistance] and
    the folded bearing [alpha]. *)
Theorem computeSteering_pure_pursuit_formula
    (P : Params) (odom_robot : Odometry) (pose_goal : Pose) :
  let vehicle := position (pwc_pose (odom_pose odom_robot)) in
  let goal := position pose_goal in
  let yawVehicle := getYaw (orientation (pwc_pose (odom_pose odom_robot))) in
  let alpha :=
    fold_alpha (atan2 (Point_y goal - Point_y vehicle) (Point_x goal - Point_x vehicle)
                - yawVehicle) in
  steering_raw (steeringLocals getYaw P odom_robot pose_goal)
  = spec_steering (ROBOT_LENGTH P) (computeDistance vehicle goal)
      (computeLookaheadDistance P odom_robot) alpha
  /\ value (computeSteering getYaw P odom_robot pose_goal)
     = limit_steering
         (spec_steering (ROBOT_LENGTH P) (computeDistance vehicle goal)
            (computeLookaheadDistance P odom_robot) alpha).
Proof.
  cbv zeta. rewrite computeSteering_value.
  unfold steeringLocals, spec_steering, computeDistance, tf2.fromMsg; simpl.
  replace 2.0 with 2 by lra.
  split; reflexivity.
Qed.

(** C8: the cross-track error of [computeSteering] is [computeDistance] of
    the vehicle's and the goal's positions, and that is the number logged. *)
Theorem cross_track_error_is_computeDistance
    (P : Params) (odom_robot : Odometry) (pose_goal : Pose) :
  cross_track_error (steeringLocals getYaw P odom_robot pose_goal)
  = computeDistance (position (pwc_pose (odom_pose odom_robot))) (position pose_goal)
  /\ In ("Cross-track Error: %f"%string,
         computeDistance (position (pwc_pose (odom_pose odom_robot))) (position pose_goal))
        (output (computeSteering getYaw P odom_robot pose_goal)).
Proof.
  split.
  - unfold steeringLocals, computeDistance, tf2.fromMsg; simpl. reflexivity.
  - unfold computeSteering, output, bind, ROS_INFO, ret; simpl.
    do 3 right. left. reflexivity.
Qed.

(** ** The command *)

(** C9: two goals at the same position give the same command, whatever
    their orientations. *)
Theorem computeControlOutputs_ignores_goal_orientation
    (P : Params) (odom_robot : Odometry) (pose_goal1 pose_goal2 : Pose) :
  position pose_goal1 = position pose_goal2 ->
  value (computeControlOutputs getYaw P odom_robot pose_goal1)
  = value (computeControlOutputs getYaw P odom_robot pose_goal2).
Proof.
  intros Hpos.
  rewrite !computeControlOutputs_value, !computeSteering_value.
  unfold steeringLocals; simpl.
  rewrite Hpos. reflexivity.
Qed.

(** The goal's yaw is logged, as is, and in the heading error. *)
Lemma computeSteering_logs_goal_yaw
    (P : Params) (odom_robot : Odometry) (pose_goal : Pose) :
  In ("Yaw Goal: %f"%string, getYaw (orientation pose_goal))
     (output (computeSteering getYaw P odom_robot pose_goal))
  /\ In ("Heading Error: %f"%string,
         getYaw (orientation pose_goal)
         - getYaw (orientation (pwc_pose (odom_pose odom_robot))))
        (output (computeSteering getYaw P odom_robot pose_goal)).
Proof.
  unfold computeSteering, output, bind, ROS_INFO, ret; simpl.
  split; [right; left | do 2 right; left]; reflexivity.
Qed.

(** C10: in the command of [computeControlOutputs], [linear.y], [linear.z],
    [angular.x] and [angular.y] are 0. *)
Theorem computeControlOutputs_other_fields_zero
    (P : Params) (odom_robot : Odometry) (pose_goal : Pose) :
  let cmd_vel := value (computeControlOutputs getYaw P odom_robot pose_goal) in
  Vector3_y (linear cmd_vel) = 0
  /\ Vector3_z (linear cmd_vel) = 0
  /\ Vector3_x (angular cmd_vel) = 0
  /\ Vector3_y (angular cmd_vel) = 0.
Proof.
  cbv zeta. rewrite computeControlOutputs_value. simpl.
  repeat split; reflexivity.
Qed.

End ControllerProperties.

(** ** The fold of alpha *)

(** Within three quarter turns of zero the fold does reach the half plane. *)
Lemma fold_alpha_range (a : R) :
  - (3 * PI / 2) <= a <= 3 * PI / 2 -> - PI / 2 <= fold_alpha a <= PI / 2.
Proof.
  intros Ha. unfold fold_alpha. by_cases.
Qed.

(** C5: the fold does not always reach [-PI/2, PI/2].  For the vehicle
    facing backwards and the goal at (-1, -1) the raw alpha is -7PI/4, one
    fold gives -3PI/4, and that is below -PI/2. *)
Theorem fold_alpha_misses_half_plane (P : Params) :
  let v := steeringLocals tf2_getYaw P odom_facing_back goal_ahead_right in
  alpha_raw v = - (7 * PI / 4)
  /\ alpha v = - (3 * PI / 4)
  /\ ~ (- PI / 2 <= alpha v <= PI / 2).
Proof.
  pose proof PI_RGT_0 as Hpi.
  assert (Hraw : alpha_raw (steeringLocals tf2_getYaw P odom_facing_back goal_ahead_right)
                 = - (7 * PI / 4)).
  { unfold steeringLocals, odom_facing_back, goal_ahead_right, tf2.fromMsg; simpl.
    rewrite tf2_getYaw_half_turn.
    replace (-1 - 0) with (-1) by ring.
    rewrite atan2_third_quadrant_diagonal by lra. lra. }
  assert (Hfold : alpha (steeringLocals tf2_getYaw P odom_facing_back goal_ahead_right)
                  = - (3 * PI / 4)).
  { change (alpha (steeringLocals tf2_getYaw P odom_facing_back goal_ahead_right))
      with (fold_alpha
              (alpha_raw (steeringLocals tf2_getYaw P odom_facing_back goal_ahead_right))).
    rewrite Hraw. unfold fold_alpha. by_cases. }
  cbv zeta. rewrite Hfold. repeat split; [exact Hraw | lra].
Qed.

(** The same with a heading off the branch cut: the goal is about 78
    degrees to the left of the vehicle, the raw alpha is below -3PI/2 and one
    fold leaves it below -PI/2. *)
Lemma fold_alpha_misses_half_plane_147 (P : Params) :
  let v := steeringLocals tf2_getYaw P odom_heading_147 goal_ahead_right in
  alpha_raw v < - (3 * PI / 2)
  /\ alpha v = alpha_raw v + PI
  /\ alpha v < - PI / 2.
Proof.
  pose proof PI_RGT_0 as Hpi.
  set (r := 0.5376 / 0.8432).
  assert (Hr : atan r < PI / 4).
  { rewrite <- atan_1. apply atan_increasing. unfold r. lra. }
  assert (Hyaw : tf2_getYaw (mkQuaternion 0 0 0.96 0.28) = PI - atan r).
  { rewrite tf2_getYaw_planar by lra. unfold atan2.
    destruct (Rlt_dec 0 _) as [H|_]; [exfalso; lra|].
    destruct (Rlt_dec _ 0) as [_|H]; [|exfalso; lra].
    destruct (Rle_dec 0 _) as [_|H]; [|exfalso; lra].
    replace (2 * (0.28 * 0.96) / (0.28 * 0.28 - 0.96 * 0.96)) with (- r)
      by (unfold r; lra).
    rewrite atan_opp. lra. }
  assert (Hraw : alpha_raw (steeringLocals tf2_getYaw P odom_heading_147 goal_ahead_right)
                 = - (3 * PI / 4) - (PI - atan r)).
  { unfold steeringLocals, odom_heading_147, goal_ahead_right, tf2.fromMsg; simpl.
    rewrite Hyaw. replace (-1 - 0) with (-1) by ring.
    rewrite atan2_third_quadrant_diagonal by lra. reflexivity. }
  cbv zeta.
  change (alpha (steeringLocals tf2_getYaw P odom_heading_147 goal_ahead_right))
    with (fold_alpha
            (alpha_raw (steeringLocals tf2_getYaw P odom_heading_147 goal_ahead_right))).
  rewrite Hraw. unfold fold_alpha. by_cases.
Qed.

Section AlphaAndCallbacks.

Variable getYaw : Quaternion -> R.

(** C6: a raw alpha in (PI/2, PI] folds to alpha - PI, in (-PI/2, 0]; a raw
    alpha in [-PI, -PI/2) folds to alpha + PI, in [0, PI/2); for a vehicle
    at the origin with heading 0 and the goal at (-5, 0) the raw alpha is
    PI and folds to 0. *)
Theorem fold_alpha_half_turn :
  (forall a, PI / 2 < a <= PI ->
     fold_alpha a = a - PI /\ - PI / 2 < fold_alpha a <= 0)
  /\ (forall a, - PI <= a < - PI / 2 ->
        fold_alpha a = a + PI /\ 0 <= fold_alpha a < PI / 2)
  /\ (forall (P : Params) (odom_robot : Odometry) (pose_goal : Pose),
        Point_x (position (pwc_pose (odom_pose odom_robot))) = 0 ->
        Point_y (position (pwc_pose (odom_pose odom_robot))) = 0 ->
        getYaw (orientation (pwc_pose (odom_pose odom_robot))) = 0 ->
        Point_x (position pose_goal) = -5 ->
        Point_y (position pose_goal) = 0 ->
        alpha_raw (steeringLocals getYaw P odom_robot pose_goal) = PI
        /\ alpha (steeringLocals getYaw P odom_robot pose_goal) = 0).
Proof.
  pose proof PI_RGT_0 as Hpi.
  split; [|split].
  - intros a Ha. unfold fold_alpha. by_cases.
  - intros a Ha. unfold fold_alpha. by_cases.
  - intros P odom_robot pose_goal Hx Hy Hyaw Hgx Hgy.
    assert (Hraw : alpha_raw (steeringLocals getYaw P odom_robot pose_goal) = PI).
    { unfold steeringLocals, tf2.fromMsg; simpl.
      rewrite Hx, Hy, Hyaw, Hgx, Hgy.
      replace (0 - 0) with 0 by ring.
      rewrite atan2_neg_x_axis by lra. ring. }
    split; [exact Hraw|].
    change (alpha (steeringLocals getYaw P odom_robot pose_goal))
      with (fold_alpha (alpha_raw (steeringLocals getYaw P odom_robot pose_goal))).
    rewrite Hraw. unfold fold_alpha. by_cases.
Qed.

(** ** The callbacks *)

Lemma localPathCallback_members (path : Path) (st st' : NodeState) :
  localPathCallback getYaw path st = Some st' ->
  odom_world_robot_ st' = odom_world_robot_ st /\ params st' = params st.
Proof.
  unfold localPathCallback.
  destruct (nth_error (poses path) 11); [|discriminate].
  intros [= <-]. split; reflexivity.
Qed.

Lemma step_members (e : Event) (st st' : NodeState) :
  step getYaw e st = Some st' ->
  odom_world_robot_ st' = latest_odom [e] (odom_world_robot_ st)
  /\ params st' = latest_params [e] (params st).
Proof.
  destruct e; simpl.
  - intros [= <-]. split; reflexivity.
  - intros [= <-]. split; reflexivity.
  - apply localPathCallback_members.
Qed.

(** After [spin], the stored odometry is the last one delivered and the
    parameters are those of the last reconfiguration. *)
Lemma spin_members (evs : list Event) :
  forall st st' : NodeState,
    spin getYaw evs st = Some st' ->
    odom_world_robot_ st' = latest_odom evs (odom_world_robot_ st)
    /\ params st' = latest_params evs (params st).
Proof.
  induction evs as [|e evs IH]; simpl; intros st st' Hspin.
  - injection Hspin as <-. split; reflexivity.
  - destruct (step getYaw e st) as [st1|] eqn:Hstep; [|discriminate].
    destruct (IH _ _ Hspin) as [Ho Hp].
    destruct (step_members _ _ _ Hstep) as [Ho1 Hp1].
    rewrite Ho, Hp, Ho1, Hp1.
    destruct e; split; reflexivity.
Qed.

(** C3: after any delivered messages, a local path of at least 12 waypoints
    makes the pose at index 11 the goal and publishes
    [computeControlOutputs] of the latest odometry and that goal; with fewer
    than 12 waypoints the callback has no defined result. *)
Theorem localPathCallback_goal_is_index_11
    (config0 : path_trackerConfig) (evs : list Event) (st : NodeState) (path : Path) :
  spin getYaw evs (PathTrackerNode config0) = Some st ->
  ((12 <= List.length (poses path))%nat ->
   exists (p : PoseStamped) (st' : NodeState),
     nth_error (poses path) 11 = Some p
     /\ localPathCallback getYaw path st = Some st'
     /\ pose_world_goal_ st' = ps_pose p
     /\ pub_cmd_vel_ st'
        = pub_cmd_vel_ st
          ++ [value (computeControlOutputs getYaw
                       (latest_params evs (dynamicParamCallback config0 0))
                       (latest_odom evs Odometry_default)
                       (ps_pose p))])
  /\ ((List.length (poses path) < 12)%nat -> localPathCallback getYaw path st = None).
Proof.
  intros Hspin.
  destruct (spin_members _ _ _ Hspin) as [Ho Hp]. simpl in Ho, Hp.
  split.
  - intros Hlen.
    destruct (nth_error (poses path) 11) as [p|] eqn:Hnth.
    + exists p. eexists. split; [reflexivity|].
      unfold localPathCallback. rewrite Hnth.
      split; [reflexivity|]. simpl.
      rewrite Ho, Hp. split; reflexivity.
    + apply nth_error_None in Hnth.
      exfalso. apply (PeanoNat.Nat.lt_irrefl 11).
      eapply PeanoNat.Nat.lt_le_trans; [exact Hlen | exact Hnth].
  - intros Hlen. unfold localPathCallback.
    assert (Hnth : nth_error (poses path) 11 = None).
    { apply nth_error_None. apply PeanoNat.Nat.lt_succ_r. exact Hlen. }
    rewrite Hnth. reflexivity.
Qed.

End AlphaAndCallbacks.

(** ** Instances *)

Lemma computeThrottle_saturating_min_witness :
  computeThrottle params_demo 4 = Rmin 1 (4 * 0.5)
  /\ 0 <= computeThrottle params_demo 4 <= 1
  /\ (computeThrottle params_demo 4 = 1 <-> 4 * 0.5 >= 1).
Proof.
  apply (computeThrottle_saturating_min params_demo 4); simpl; lra.
Defined.

Lemma fold_alpha_half_turn_witness :
  alpha_raw (steeringLocals tf2_getYaw params_demo odom_at_origin goal_behind) = PI
  /\ alpha (steeringLocals tf2_getYaw params_demo odom_at_origin goal_behind) = 0.
Proof.
  apply (proj2 (proj2 (fold_alpha_half_turn tf2_getYaw))); simpl;
    solve [reflexivity | apply tf2_getYaw_identity].
Defined.

Lemma computeControlOutputs_ignores_goal_orientation_witness :
  orientation goal_behind <> orientation goal_behind_turned
  /\ value (computeControlOutputs tf2_getYaw params_demo odom_at_origin goal_behind)
     = value (computeControlOutputs tf2_getYaw params_demo odom_at_origin goal_behind_turned).
Proof.
  split.
  - simpl. intros H. injection H as Hz Hw. lra.
  - apply computeControlOutputs_ignores_goal_orientation. reflexivity.
Defined.

Lemma localPathCallback_goal_is_index_11_witness :
  exists st' : NodeState,
    localPathCallback tf2_getYaw path_demo
      (robotOdomCallback odom_at_origin (PathTrackerNode config_demo)) = Some st'
    /\ pose_world_goal_ st' = goal_behind
    /\ pub_cmd_vel_ st'
       = [value (computeControlOutputs tf2_getYaw params_demo odom_at_origin goal_behind)].
Proof.
  destruct (localPathCallback_goal_is_index_11 tf2_getYaw config_demo
              [OdomMsg odom_at_origin]
              (robotOdomCallback odom_at_origin (PathTrackerNode config_demo))
              path_demo eq_refl) as [Hlong _].
  destruct (Hlong (le_n 12)) as (p & st' & Hnth & Hcall & Hgoal & Hpub).
  injection Hnth as <-.
  exists st'. repeat split; assumption.
Defined.

Lemma computeDistance_nonneg (p1 p2 : Point) : 0 <= computeDistance p1 p2.
Proof. apply sqrt_pos. Qed.

Lemma computeDistance_same_xy (p1 p2 : Point) :
  Point_x p1 = Point_x p2 -> Point_y p1 = Point_y p2 -> computeDistance p1 p2 = 0.
Proof.
  intros Hx Hy. unfold computeDistance; cbv zeta. rewrite Hx, Hy.
  replace ((Point_x p2 - Point_x p2) * (Point_x p2 - Point_x p2)
           + (Point_y p2 - Point_y p2) * (Point_y p2 - Point_y p2)) with 0 by ring.
  apply sqrt_0.
Qed.

(** * Further properties of the control law *)

(** [computeDistance] is never negative, symmetric in its two points and 0
    for two points with the same x and y; it reads x and y only, so points
    that differ in z alone are at distance 0. *)
Theorem computeDistance_symmetric_nonneg (p1 p2 : Point) :
  0 <= computeDistance p1 p2
  /\ computeDistance p1 p2 = computeDistance p2 p1
  /\ (Point_x p1 = Point_x p2 -> Point_y p1 = Point_y p2 -> computeDistance p1 p2 = 0)
  /\ (forall z1 z2 : R,
        computeDistance (mkPoint (Point_x p1) (Point_y p1) z1)
                        (mkPoint (Point_x p2) (Point_y p2) z2)
        = computeDistance p1 p2).
Proof.
  split; [apply computeDistance_nonneg|].
  split; [unfold computeDistance; cbv zeta; f_equal; ring|].
  split; [apply computeDistance_same_xy|].
  intros z1 z2. reflexivity.
Qed.

(** Whatever the parameters and the distance, the throttle is one of the
    limit and distance times gain and exceeds neither: it has the limit as
    upper bound and no lower bound of its own. *)
Theorem computeThrottle_never_above (P : Params) (distance_to_goal : R) :
  computeThrottle P distance_to_goal <= MAX_THROTTLE P
  /\ computeThrottle P distance_to_goal <= distance_to_goal * THROTTLE_GAIN P
  /\ (computeThrottle P distance_to_goal = MAX_THROTTLE P
      \/ computeThrottle P distance_to_goal = distance_to_goal * THROTTLE_GAIN P).
Proof.
  unfold computeThrottle, std_min.
  destruct (Rlt_dec _ _); repeat split; try lra; auto.
Qed.

(** With a gain that is not negative the throttle does not decrease when
    the distance grows. *)
Theorem computeThrottle_monotone (P : Params) (d1 d2 : R) :
  0 <= THROTTLE_GAIN P ->
  d1 <= d2 ->
  computeThrottle P d1 <= computeThrottle P d2.
Proof.
  intros Hgain Hd.
  assert (d1 * THROTTLE_GAIN P <= d2 * THROTTLE_GAIN P) by nra.
  unfold computeThrottle, std_min. by_cases.
Qed.

(** The lookahead distance is 1.0 when the flag is unset or the velocity is
    at most 1, and the velocity itself when the flag is set and the velocity
    is at least 1: the parameter never scales the velocity. *)
Theorem computeLookaheadDistance_cases (P : Params) (odom_robot : Odometry) :
  let velocity := Vector3_x (linear (twc_twist (odom_twist odom_robot))) in
  (DEFAULT_LOOKAHEAD_DISTANCE P = false -> computeLookaheadDistance P odom_robot = 1)
  /\ (velocity <= 1 -> computeLookaheadDistance P odom_robot = 1)
  /\ (DEFAULT_LOOKAHEAD_DISTANCE P = true -> 1 <= velocity ->
      computeLookaheadDistance P odom_robot = velocity).
Proof.
  cbv zeta. unfold computeLookaheadDistance, std_max, bool_to_double.
  repeat split.
  - intros ->. by_cases.
  - intros Hv. destruct (DEFAULT_LOOKAHEAD_DISTANCE P); by_cases.
  - intros -> Hv. by_cases.
Qed.

Section SteeringProperties.

Variable getYaw : Quaternion -> R.

(** With a throttle limit and a gain that are not negative, the throttle of
    the command lies in [0, MAX_THROTTLE] for every odometry and goal (the
    distance fed to [computeThrottle] is a square root), and it is 0 when the
    vehicle stands on the goal's x and y. *)
Theorem computeControlOutputs_throttle_bounds
    (P : Params) (odom_robot : Odometry) (pose_goal : Pose) :
  0 <= MAX_THROTTLE P ->
  0 <= THROTTLE_GAIN P ->
  let cmd_vel := value (computeControlOutputs getYaw P odom_robot pose_goal) in
  0 <= Vector3_x (linear cmd_vel) <= MAX_THROTTLE P
  /\ (Point_x (position (pwc_pose (odom_pose odom_robot))) = Point_x (position pose_goal) ->
      Point_y (position (pwc_pose (odom_pose odom_robot))) = Point_y (position pose_goal) ->
      Vector3_x (linear cmd_vel) = 0).
Proof.
  intros Hmax Hgain. cbv zeta.
  rewrite computeControlOutputs_value.
  cbn [linear angular Vector3_x Vector3_y Vector3_z].
  split.
  - set (d := computeDistance _ _).
    assert (Hd : 0 <= d) by apply computeDistance_nonneg.
    assert (0 <= d * THROTTLE_GAIN P) by nra.
    unfold computeThrottle, std_min. by_cases.
  - intros Hx Hy.
    rewrite (computeDistance_same_xy _ _ Hx Hy).
    unfold computeThrottle, std_min. by_cases.
Qed.

(** When the vehicle's yaw is within a quarter turn of 0 the folded alpha
    does lie in [-PI/2, PI/2]. *)
Theorem alpha_in_half_plane_for_small_yaw
    (P : Params) (odom_robot : Odometry) (pose_goal : Pose) :
  - PI / 2 <= getYaw (orientation (pwc_pose (odom_pose odom_robot))) <= PI / 2 ->
  - PI / 2 <= alpha (steeringLocals getYaw P odom_robot pose_goal) <= PI / 2.
Proof.
  intros Hyaw.
  unfold steeringLocals; simpl.
  match goal with |- context [atan2 ?y ?x] => pose proof (atan2_range y x) as Hb end.
  apply fold_alpha_range. lra.
Qed.

(** The command uses the odometry only through the position's x and y, the
    orientation and the linear x velocity, and the goal only through its x
    and y: z, covariances, headers, frame names, the other velocities and the
    goal's orientation never reach it. *)
Theorem computeControlOutputs_inputs_used
    (P : Params) (odom1 odom2 : Odometry) (goal1 goal2 : Pose) :
  Point_x (position (pwc_pose (odom_pose odom1)))
    = Point_x (position (pwc_pose (odom_pose odom2))) ->
  Point_y (position (pwc_pose (odom_pose odom1)))
    = Point_y (position (pwc_pose (odom_pose odom2))) ->
  orientation (pwc_pose (odom_pose odom1)) = orientation (pwc_pose (odom_pose odom2)) ->
  Vector3_x (linear (twc_twist (odom_twist odom1)))
    = Vector3_x (linear (twc_twist (odom_twist odom2))) ->
  Point_x (position goal1) = Point_x (position goal2) ->
  Point_y (position goal1) = Point_y (position goal2) ->
  value (computeControlOutputs getYaw P odom1 goal1)
  = value (computeControlOutputs getYaw P odom2 goal2).
Proof.
  intros Hx Hy Ho Hv Hgx Hgy.
  rewrite !computeControlOutputs_value, !computeSteering_value.
  unfold steeringLocals, computeDistance, computeLookaheadDistance, tf2.fromMsg; simpl.
  rewrite Hx, Hy, Ho, Hv, Hgx, Hgy. reflexivity.
Qed.

(** What one control computation logs: nine lines in this order, the
    "Throttle" and "Computed Steering Angle" lines carrying the command's
    own throttle and steering. *)
Theorem computeControlOutputs_log
    (P : Params) (odom_robot : Odometry) (pose_goal : Pose) :
  let run := computeControlOutputs getYaw P odom_robot pose_goal in
  map fst (output run)
  = ["distance to goal: %f"; "Yaw Robot: %f"; "Yaw Goal: %f"; "Heading Error: %f";
     "Cross-track Error: %f"; "Alpha: %f"; "Lookahead Distance: %f";
     "Computed Steering Angle: %f"; "Throttle: %f"]%string
  /\ In ("Throttle: %f"%string, Vector3_x (linear (value run))) (output run)
  /\ In ("Computed Steering Angle: %f"%string, Vector3_z (angular (value run)))
        (output run).
Proof.
  cbv zeta.
  unfold computeControlOutputs, computeSteering, output, value, bind, ROS_INFO, ret; simpl.
  split; [reflexivity|].
  split; [do 8 right; left; reflexivity | do 7 right; left; reflexivity].
Qed.

End SteeringProperties.

(** * Further properties of the node *)

Section NodeProperties.

Variable getYaw : Quaternion -> R.

Lemma localPathCallback_inv (path : Path) (st st' : NodeState) :
  localPathCallback getYaw path st = Some st' ->
  exists p : PoseStamped,
    nth_error (poses path) 11 = Some p
    /\ st' = {| params := params st;
                robot_frame_ := robot_frame_ st;
                world_frame_ := world_frame_ st;
                odom_world_robot_ := odom_world_robot_ st;
                pose_world_goal_ := ps_pose p;
                pub_cmd_vel_ :=
                  pub_cmd_vel_ st
                  ++ [value (computeControlOutputs getYaw (params st)
                               (odom_world_robot_ st) (ps_pose p))];
                rosout :=
                  rosout st
                  ++ output (computeControlOutputs getYaw (params st)
                               (odom_world_robot_ st) (ps_pose p)) |}.
Proof.
  unfold localPathCallback.
  destruct (nth_error (poses path) 11) as [p|]; [|discriminate].
  intros [= <-]. exists p. split; reflexivity.
Qed.

Lemma computeControlOutputs_output_length
    (P : Params) (odom_robot : Odometry) (pose_goal : Pose) :
  List.length (output (computeControlOutputs getYaw P odom_robot pose_goal)) = 9%nat.
Proof.
  unfold computeControlOutputs, computeSteering, output, bind, ROS_INFO, ret.
  cbn [snd app List.length]. reflexivity.
Qed.

(** The callback reads the path at index 11 only: two paths with the same
    element there leave the node in the same state, whatever their other
    waypoints, lengths and headers. *)
Theorem localPathCallback_reads_index_11_only (path1 path2 : Path) (st : NodeState) :
  nth_error (poses path1) 11 = nth_error (poses path2) 11 ->
  localPathCallback getYaw path1 st = localPathCallback getYaw path2 st.
Proof.
  intros H. unfold localPathCallback. rewrite H. reflexivity.
Qed.

(** An odometry message becomes the stored odometry, and its [frame_id]
    and [child_frame_id] the world and robot frame names; nothing is
    published or logged, goal and parameters stay; of two messages in a row
    only the second is kept. *)
Theorem robotOdomCallback_stores_message (odom1 odom2 : Odometry) (st : NodeState) :
  odom_world_robot_ (robotOdomCallback odom1 st) = odom1
  /\ world_frame_ (robotOdomCallback odom1 st) = frame_id (odom_header odom1)
  /\ robot_frame_ (robotOdomCallback odom1 st) = child_frame_id odom1
  /\ pub_cmd_vel_ (robotOdomCallback odom1 st) = pub_cmd_vel_ st
  /\ rosout (robotOdomCallback odom1 st) = rosout st
  /\ pose_world_goal_ (robotOdomCallback odom1 st) = pose_world_goal_ st
  /\ params (robotOdomCallback odom1 st) = params st
  /\ robotOdomCallback odom2 (robotOdomCallback odom1 st) = robotOdomCallback odom2 st.
Proof.
  unfold robotOdomCallback; cbn [odom_world_robot_ world_frame_ robot_frame_
    pub_cmd_vel_ rosout pose_world_goal_ params].
  repeat split; reflexivity.
Qed.

(** Every command the node has published since its construction, after any
    messages and under any parameter updates, has 0 in linear y and z and in
    angular x and y. *)
Theorem spin_commands_only_throttle_and_steering
    (config0 : path_trackerConfig) (evs : list Event) (st : NodeState) :
  spin getYaw evs (PathTrackerNode config0) = Some st ->
  Forall only_throttle_and_steering (pub_cmd_vel_ st).
Proof.
  assert (Hgen : forall evs st0 st,
             spin getYaw evs st0 = Some st ->
             Forall only_throttle_and_steering (pub_cmd_vel_ st0) ->
             Forall only_throttle_and_steering (pub_cmd_vel_ st)).
  { clear. intros evs. induction evs as [|e evs IH]; intros st0 st; simpl.
    - intros [= <-]. auto.
    - destruct (step getYaw e st0) as [st1|] eqn:Hstep; [|discriminate].
      intros Hspin Hinv. apply (IH _ _ Hspin).
      destruct e as [config level | odom | path]; simpl in Hstep.
      + injection Hstep as <-. exact Hinv.
      + injection Hstep as <-. exact Hinv.
      + apply localPathCallback_inv in Hstep. destruct Hstep as (p & _ & ->).
        cbn [pub_cmd_vel_]. apply Forall_app. split; [exact Hinv|].
        constructor; [|constructor].
        unfold only_throttle_and_steering.
        rewrite computeControlOutputs_value.
        cbn [linear angular Vector3_x Vector3_y Vector3_z].
        repeat split; reflexivity. }
  intros Hspin. apply (Hgen _ _ _ Hspin). constructor.
Qed.

(** Delivering two batches of messages one after the other is delivering
    their concatenation; a batch that fails makes the whole fail. *)
Theorem spin_app (evs1 evs2 : list Event) (st : NodeState) :
  spin getYaw (evs1 ++ evs2) st
  = match spin getYaw evs1 st with
    | Some st1 => spin getYaw evs2 st1
    | None => None
    end.
Proof.
  revert st. induction evs1 as [|e evs1 IH]; intros st; simpl.
  - reflexivity.
  - destruct (step getYaw e st) as [st1|]; [apply IH | reflexivity].
Qed.

(** One command and nine log lines per path, none for the other messages:
    what was published and logged before stays, in order, at the front. *)
Theorem spin_publishes_once_per_path (evs : list Event) (st st' : NodeState) :
  spin getYaw evs st = Some st' ->
  exists (cmds : list Twist) (lines : list LogEntry),
    pub_cmd_vel_ st' = pub_cmd_vel_ st ++ cmds
    /\ rosout st' = rosout st ++ lines
    /\ List.length cmds = List.length (filter is_PathMsg evs)
    /\ List.length lines = (9 * List.length (filter is_PathMsg evs))%nat.
Proof.
  revert st. induction evs as [|e evs IH]; intros st; simpl.
  - intros [= <-]. exists [], []. rewrite !app_nil_r. repeat split; reflexivity.
  - destruct (step getYaw e st) as [st1|] eqn:Hstep; [|discriminate].
    intros Hspin. destruct (IH _ Hspin) as (cmds & lines & Hp & Hr & Hc & Hl).
    destruct e as [config level | odom | path]; simpl in Hstep.
    + injection Hstep as <-. exists cmds, lines. repeat split; assumption.
    + injection Hstep as <-. exists cmds, lines. repeat split; assumption.
    + apply localPathCallback_inv in Hstep. destruct Hstep as (p & _ & ->).
      simpl in Hp, Hr.
      set (run := computeControlOutputs getYaw (params st) (odom_world_robot_ st)
                    (ps_pose p)) in *.
      cbn [filter is_PathMsg List.length].
      exists (value run :: cmds), (output run ++ lines).
      split; [rewrite Hp, <- app_assoc; reflexivity|].
      split; [rewrite Hr, <- app_assoc; reflexivity|].
      split; [cbn [List.length]; rewrite Hc; reflexivity|].
      unfold run.
      rewrite length_app, computeControlOutputs_output_length, Hl.
      lia.
Qed.

(** Once an odometry message has been delivered the two frame names are
    those of the stored odometry; before that they are the constructor's
    "world" and "base_link". *)
Theorem spin_frames
    (config0 : path_trackerConfig) (evs : list Event) (st : NodeState) :
  spin getYaw evs (PathTrackerNode config0) = Some st ->
  if existsb is_OdomMsg evs
  then frames_of_odom st
  else world_frame_ st = "world"%string /\ robot_frame_ st = "base_link"%string.
Proof.
  assert (Hgen : forall evs st0 st,
             spin getYaw evs st0 = Some st ->
             (frames_of_odom st0 -> frames_of_odom st)
             /\ if existsb is_OdomMsg evs
                then frames_of_odom st
                else world_frame_ st = world_frame_ st0
                     /\ robot_frame_ st = robot_frame_ st0).
  { clear. intros evs. induction evs as [|e evs IH]; intros st0 st; simpl.
    - intros [= <-]. auto.
    - destruct (step getYaw e st0) as [st1|] eqn:Hstep; [|discriminate].
      intros Hspin. destruct (IH _ _ Hspin) as [Hkeep Hrest].
      destruct e as [config level | odom | path]; simpl in Hstep |- *.
      + injection Hstep as <-. split; [exact Hkeep | exact Hrest].
      + injection Hstep as <-.
        assert (Hnow : frames_of_odom (robotOdomCallback odom st0))
          by (split; reflexivity).
        split; intros; apply Hkeep; exact Hnow.
      + apply localPathCallback_inv in Hstep. destruct Hstep as (p & _ & ->).
        split; [exact Hkeep | exact Hrest]. }
  intros Hspin. destruct (Hgen _ _ _ Hspin) as [_ H].
  destruct (existsb is_OdomMsg evs); exact H.
Qed.

End NodeProperties.

(** ** Instances of the further properties *)

Lemma computeThrottle_monotone_witness :
  computeThrottle params_demo 1 <= computeThrottle params_demo 3.
Proof.
  apply computeThrottle_monotone; simpl; lra.
Defined.

Lemma alpha_in_half_plane_for_small_yaw_witness :
  - PI / 2 <= alpha (steeringLocals tf2_getYaw params_demo odom_at_origin goal_ahead_right)
  <= PI / 2.
Proof.
  apply alpha_in_half_plane_for_small_yaw.
  simpl. rewrite tf2_getYaw_identity.
  pose proof PI_RGT_0. lra.
Defined.

Lemma computeControlOutputs_inputs_used_witness :
  odom_at_origin <> odom_at_origin_tagged
  /\ value (computeControlOutputs tf2_getYaw params_demo odom_at_origin goal_behind)
     = value (computeControlOutputs tf2_getYaw params_demo odom_at_origin_tagged
                goal_behind_turned).
Proof.
  split.
  - intros H. apply (f_equal child_frame_id) in H. discriminate H.
  - apply computeControlOutputs_inputs_used; reflexivity.
Defined.

Lemma localPathCallback_reads_index_11_only_witness :
  localPathCallback tf2_getYaw path_demo (PathTrackerNode config_demo)
  = localPathCallback tf2_getYaw path_demo_longer (PathTrackerNode config_demo).
Proof.
  apply localPathCallback_reads_index_11_only. reflexivity.
Defined.

Lemma spin_publishes_once_per_path_witness :
  exists (st : NodeState) (cmds : list Twist) (lines : list LogEntry),
    spin tf2_getYaw evs_demo (PathTrackerNode config_demo) = Some st
    /\ pub_cmd_vel_ st = cmds /\ rosout st = lines
    /\ List.length cmds = 2%nat /\ List.length lines = 18%nat.
Proof.
  eexists. 
  assert (Hspin : spin tf2_getYaw evs_demo (PathTrackerNode config_demo) = Some ?[st])
    by reflexivity.
  destruct (spin_publishes_once_per_path tf2_getYaw evs_demo _ _ Hspin)
    as (cmds & lines & Hp & Hr & Hc & Hl).
  exists cmds, lines. repeat split; assumption.
Defined.

Lemma spin_frames_witness :
  exists st : NodeState,
    spin tf2_getYaw evs_demo (PathTrackerNode config_demo) = Some st
    /\ frames_of_odom st.
Proof.
  eexists. split; [reflexivity|].
  apply (spin_frames tf2_getYaw config_demo evs_demo). reflexivity.
Defined.

Lemma computeControlOutputs_throttle_bounds_witness :
  0 <= Vector3_x (linear (value (computeControlOutputs tf2_getYaw params_demo
                                   odom_at_origin_tagged Pose_default))) <= 1
  /\ Vector3_x (linear (value (computeControlOutputs tf2_getYaw params_demo
                                 odom_at_origin_tagged Pose_default))) = 0.
Proof.
  destruct (computeControlOutputs_throttle_bounds tf2_getYaw params_demo
              odom_at_origin_tagged Pose_default) as [Hb Hz]; [simpl; lra ..|].
  split; [exact Hb | apply Hz; reflexivity].
Defined.

Lemma spin_commands_only_throttle_and_steering_witness :
  exists st : NodeState,
    spin tf2_getYaw evs_demo (PathTrackerNode config_demo) = Some st
    /\ Forall only_throttle_and_steering (pub_cmd_vel_ st).
Proof.
  eexists. split; [reflexivity|].
  apply (spin_commands_only_throttle_and_steering tf2_getYaw config_demo evs_demo).
  reflexivity.
Defined.

(** * Properties in binary64 *)

(** ** Comparisons and NaN *)

Lemma SFcompare_refl (x : spec_float) : x <> S754_nan -> SFcompare x x = Some Eq.
Proof.
  destruct x as [s|s| |s m e]; intros H; try reflexivity; try (now elim H).
  - destruct s; reflexivity.
  - simpl. rewrite Z.compare_refl.
    fold (Pos.compare m m). rewrite Pos.compare_refl. destruct s; reflexivity.
Qed.

Lemma SFcompare_antisym (x y : spec_float) (c : comparison) :
  SFcompare x y = Some c -> SFcompare y x = Some (CompOpp c).
Proof.
  destruct x as [sx|sx| |sx mx ex], y as [sy|sy| |sy my ey]; simpl;
    try discriminate; intros [= <-];
    try (destruct sx; reflexivity); try (destruct sy; reflexivity);
    try (destruct sx, sy; reflexivity).
  destruct sx, sy; try reflexivity;
    rewrite (Z.compare_antisym ey ex);
    destruct (Z.compare ey ex); simpl; try reflexivity;
    fold (Pos.compare mx my); fold (Pos.compare my mx);
    rewrite (Pos.compare_antisym my mx); destruct (Pos.compare my mx); reflexivity.
Qed.

Lemma SFcompare_defined (x y : spec_float) :
  x <> S754_nan -> y <> S754_nan -> exists c, SFcompare x y = Some c.
Proof.
  intros Hx Hy.
  destruct x as [sx|sx| |sx mx ex], y as [sy|sy| |sy my ey]; simpl;
    try (now elim Hx); try (now elim Hy); eexists; reflexivity.
Qed.

Lemma b64_is_nan_spec (x : float) : is_nan x = true <-> Prim2SF x = S754_nan.
Proof.
  unfold is_nan. rewrite FloatAxioms.eqb_spec. unfold SFeqb.
  split.
  - intros H. destruct (Prim2SF x) eqn:E; try reflexivity;
      rewrite SFcompare_refl in H by discriminate; discriminate.
  - intros ->. reflexivity.
Qed.

Lemma b64_not_nan_spec (x : float) : is_nan x = false <-> Prim2SF x <> S754_nan.
Proof.
  rewrite <- b64_is_nan_spec. destruct (is_nan x); split; congruence.
Qed.

Lemma b64_ltb_leb (x y : float) : (x <? y)%float = true -> (x <=? y)%float = true.
Proof.
  rewrite FloatAxioms.ltb_spec, FloatAxioms.leb_spec. unfold SFltb, SFleb.
  destruct (SFcompare (Prim2SF x) (Prim2SF y)) as [[| |]|]; congruence.
Qed.

Lemma b64_not_ltb_leb (x y : float) :
  is_nan x = false -> is_nan y = false ->
  (x <? y)%float = false -> (y <=? x)%float = true.
Proof.
  intros Hx Hy. apply b64_not_nan_spec in Hx, Hy.
  rewrite FloatAxioms.ltb_spec, FloatAxioms.leb_spec. unfold SFltb, SFleb.
  destruct (SFcompare_defined _ _ Hx Hy) as [c Hc].
  rewrite Hc, (SFcompare_antisym _ _ _ Hc).
  destruct c; simpl; congruence.
Qed.

Lemma b64_leb_refl (x : float) : is_nan x = false -> (x <=? x)%float = true.
Proof.
  intros Hx. apply b64_not_nan_spec in Hx.
  rewrite FloatAxioms.leb_spec. unfold SFleb.
  rewrite SFcompare_refl by exact Hx. reflexivity.
Qed.

Lemma b64_leb_not_nan (x y : float) :
  (x <=? y)%float = true -> is_nan x = false /\ is_nan y = false.
Proof.
  rewrite FloatAxioms.leb_spec. unfold SFleb. intros H.
  split; apply b64_not_nan_spec; intros E; rewrite E in H;
    [|destruct (Prim2SF x)]; discriminate.
Qed.

Lemma b64_ltb_nan (x y : float) :
  is_nan x = true -> (x <? y)%float = false /\ (y <? x)%float = false.
Proof.
  intros Hx. apply b64_is_nan_spec in Hx.
  rewrite !FloatAxioms.ltb_spec, Hx. unfold SFltb.
  split; [reflexivity|]. destruct (Prim2SF y); reflexivity.
Qed.

Lemma b64_add_nan_l (x y : float) : is_nan x = true -> is_nan (x + y)%float = true.
Proof.
  intros Hx. apply b64_is_nan_spec in Hx.
  apply b64_is_nan_spec. rewrite FloatAxioms.add_spec, Hx. reflexivity.
Qed.

Lemma b64_limit_steering_nan (s : float) :
  is_nan s = true -> Binary64.limit_steering s = s.
Proof.
  intros Hs. unfold Binary64.limit_steering.
  destruct (b64_ltb_nan s Binary64.MAX_STEERING_ANGLE Hs) as [_ ->].
  destruct (b64_ltb_nan s (- Binary64.MAX_STEERING_ANGLE)%float Hs) as [-> _].
  reflexivity.
Qed.

Lemma b64_limit_steering_within (s : float) :
  is_nan s = false -> Binary64.within_limit (Binary64.limit_steering s).
Proof.
  intros Hs. unfold Binary64.limit_steering, Binary64.within_limit.
  destruct (Binary64.MAX_STEERING_ANGLE <? s)%float eqn:Hhi; [split; reflexivity|].
  destruct (s <? - Binary64.MAX_STEERING_ANGLE)%float eqn:Hlo; [split; reflexivity|].
  split.
  - apply b64_not_ltb_leb; [exact Hs | reflexivity | exact Hlo].
  - apply b64_not_ltb_leb; [reflexivity | exact Hs | exact Hhi].
Qed.

Lemma b64_below_not_above (s : float) :
  (s <? - Binary64.MAX_STEERING_ANGLE)%float = true ->
  (Binary64.MAX_STEERING_ANGLE <? s)%float = false.
Proof.
  rewrite !FloatAxioms.ltb_spec. unfold SFltb.
  set (lo := Prim2SF (- Binary64.MAX_STEERING_ANGLE)%float). vm_compute in lo.
  set (hi := Prim2SF Binary64.MAX_STEERING_ANGLE). vm_compute in hi.
  subst lo hi. intros Hlo.
  destruct (Prim2SF s) as [sx|sx| |sx mx ex].
  - cbv in Hlo. discriminate Hlo.
  - destruct sx; [reflexivity | cbv in Hlo; discriminate Hlo].
  - cbv in Hlo. discriminate Hlo.
  - destruct sx; [reflexivity | cbv in Hlo; discriminate Hlo].
Qed.

(** ** Throttle and lookahead, on every binary64 *)

Lemma b64_computeThrottle_le_max (P : Binary64.Params) (distance_to_goal : float) :
  is_nan (Binary64.MAX_THROTTLE P) = false ->
  (Binary64.computeThrottle P distance_to_goal <=? Binary64.MAX_THROTTLE P)%float = true.
Proof.
  intros Hmax. unfold Binary64.computeThrottle, Binary64.std_min.
  destruct (distance_to_goal * Binary64.THROTTLE_GAIN P <? Binary64.MAX_THROTTLE P)%float
    eqn:Hlt.
  - apply b64_ltb_leb. exact Hlt.
  - apply b64_leb_refl. exact Hmax.
Qed.

(** Whatever the distance and the gain, NaN and the infinities included, the
    throttle is a number and at most [MAX_THROTTLE], once [MAX_THROTTLE] is
    not NaN: [std::min] returns its first argument when the comparison with
    NaN fails. *)
Theorem binary64_computeThrottle_at_most_max
    (P : Binary64.Params) (distance_to_goal : float) :
  is_nan (Binary64.MAX_THROTTLE P) = false ->
  (Binary64.computeThrottle P distance_to_goal <=? Binary64.MAX_THROTTLE P)%float = true
  /\ is_nan (Binary64.computeThrottle P distance_to_goal) = false.
Proof.
  intros Hmax.
  pose proof (b64_computeThrottle_le_max P distance_to_goal Hmax) as Hle.
  split; [exact Hle | apply (b64_leb_not_nan _ _ Hle)].
Qed.

(** For every velocity, NaN and the infinities included, and both values of
    the flag, the lookahead distance is a number and at least 1.0. *)
Theorem binary64_computeLookaheadDistance_floor
    (P : Binary64.Params) (odom_robot : Binary64.Odometry) :
  (1.0 <=? Binary64.computeLookaheadDistance P odom_robot)%float = true
  /\ is_nan (Binary64.computeLookaheadDistance P odom_robot) = false.
Proof.
  assert (Hle : (1.0 <=? Binary64.computeLookaheadDistance P odom_robot)%float = true).
  { unfold Binary64.computeLookaheadDistance, Binary64.std_max. cbv zeta.
    match goal with |- context [(1.0 <? ?x)%float] =>
      destruct (1.0 <? x)%float eqn:Hlt end.
    - apply b64_ltb_leb. exact Hlt.
    - reflexivity. }
  split; [exact Hle | apply (b64_leb_not_nan _ _ Hle)].
Qed.

(** ** Steering in binary64 *)

Section Binary64Steering.

Variable atan : float -> float.
Variable atan2 : float -> float -> float.
Variable getYaw : Binary64.Quaternion -> float.

Lemma binary64_computeSteering_value
    (P : Binary64.Params) (odom_robot : Binary64.Odometry) (pose_goal : Binary64.Pose) :
  Binary64.value (Binary64.computeSteering atan atan2 getYaw P odom_robot pose_goal)
  = Binary64.limit_steering
      (Binary64.steering_raw
         (Binary64.steeringLocals atan atan2 getYaw P odom_robot pose_goal)).
Proof. reflexivity. Qed.

(** C1, as the code has it: the steering [computeSteering] returns is the
    limited pre-clamp value; when the pre-clamp value is not NaN it lies in
    [-0.5, 0.5]; the limit returns 0.5 and -0.5 unchanged and maps every
    value beyond to the boundary on its side. *)
Theorem binary64_computeSteering_within_limit
    (P : Binary64.Params) (odom_robot : Binary64.Odometry) (pose_goal : Binary64.Pose) :
  let v := Binary64.steeringLocals atan atan2 getYaw P odom_robot pose_goal in
  let returned :=
    Binary64.value (Binary64.computeSteering atan atan2 getYaw P odom_robot pose_goal) in
  returned = Binary64.limit_steering (Binary64.steering_raw v)
  /\ (is_nan (Binary64.steering_raw v) = false -> Binary64.within_limit returned)
  /\ Binary64.limit_steering 0.5 = 0.5%float
  /\ Binary64.limit_steering (-0.5) = (-0.5)%float
  /\ (forall s : float, (0.5 <? s)%float = true -> Binary64.limit_steering s = 0.5%float)
  /\ (forall s : float, (s <? -0.5)%float = true ->
        Binary64.limit_steering s = (-0.5)%float).
Proof.
  cbv zeta. rewrite binary64_computeSteering_value.
  split; [reflexivity|].
  split; [apply b64_limit_steering_within|].
  split; [reflexivity|]. split; [reflexivity|].
  split.
  - intros s Hs. unfold Binary64.limit_steering.
    change (Binary64.MAX_STEERING_ANGLE <? s)%float with (0.5 <? s)%float.
    rewrite Hs. reflexivity.
  - intros s Hs.
    change (s <? -0.5)%float with (s <? - Binary64.MAX_STEERING_ANGLE)%float in Hs.
    unfold Binary64.limit_steering.
    rewrite (b64_below_not_above s Hs), Hs. reflexivity.
Qed.

(** A NaN before the limit comes out of it. *)
Lemma binary64_computeSteering_returns_nan
    (P : Binary64.Params) (odom_robot : Binary64.Odometry) (pose_goal : Binary64.Pose) :
  is_nan (Binary64.steering_raw
            (Binary64.steeringLocals atan atan2 getYaw P odom_robot pose_goal)) = true ->
  is_nan (Binary64.value
            (Binary64.computeSteering atan atan2 getYaw P odom_robot pose_goal)) = true.
Proof.
  intros Hraw. rewrite binary64_computeSteering_value.
  rewrite b64_limit_steering_nan; exact Hraw.
Qed.

(** With [ROBOT_LENGTH] 0 and the goal at x = 1e200, the squared distance
    overflows, 0 times infinity is NaN, and with any [atan] that returns
    NaN on NaN the returned steering is NaN. *)
Lemma binary64_steering_nan_zero_length :
  Binary64.propagates_nan atan ->
  is_nan (Binary64.value
            (Binary64.computeSteering atan atan2 getYaw Binary64.params_zero_length
               Binary64.odom_origin Binary64.goal_far)) = true.
Proof.
  intros Hatan. apply binary64_computeSteering_returns_nan.
  unfold Binary64.steeringLocals. cbn [Binary64.steering_raw].
  apply b64_add_nan_l. apply Hatan. reflexivity.
Qed.

(** The same on the goal with [ROBOT_LENGTH] 1e308: twice the length
    overflows and infinity times 0 is NaN. *)
Lemma binary64_steering_nan_on_goal :
  Binary64.propagates_nan atan ->
  is_nan (Binary64.value
            (Binary64.computeSteering atan atan2 getYaw Binary64.params_long
               Binary64.odom_origin Binary64.goal_at_origin)) = true.
Proof.
  intros Hatan. apply binary64_computeSteering_returns_nan.
  unfold Binary64.steeringLocals. cbn [Binary64.steering_raw].
  apply b64_add_nan_l. apply Hatan. reflexivity.
Qed.

(** The command in binary64: its steering is NaN or within [-0.5, 0.5], its
    throttle is at most [MAX_THROTTLE] when that is not NaN, and the four
    other fields are 0. *)
Theorem binary64_computeControlOutputs_command
    (P : Binary64.Params) (odom_robot : Binary64.Odometry) (pose_goal : Binary64.Pose) :
  let cmd_vel :=
    Binary64.value
      (Binary64.computeControlOutputs atan atan2 getYaw P odom_robot pose_goal) in
  (is_nan (Binary64.Vector3_z (Binary64.angular cmd_vel)) = true
   \/ Binary64.within_limit (Binary64.Vector3_z (Binary64.angular cmd_vel)))
  /\ (is_nan (Binary64.MAX_THROTTLE P) = false ->
      (Binary64.Vector3_x (Binary64.linear cmd_vel) <=? Binary64.MAX_THROTTLE P)%float = true)
  /\ Binary64.Vector3_y (Binary64.linear cmd_vel) = 0%float
  /\ Binary64.Vector3_z (Binary64.linear cmd_vel) = 0%float
  /\ Binary64.Vector3_x (Binary64.angular cmd_vel) = 0%float
  /\ Binary64.Vector3_y (Binary64.angular cmd_vel) = 0%float.
Proof.
  cbv zeta.
  change (Binary64.value
            (Binary64.computeControlOutputs atan atan2 getYaw P odom_robot pose_goal))
    with (Binary64.mkTwist
            (Binary64.mkVector3
               (Binary64.computeThrottle P
                  (Binary64.computeDistance
                     (Binary64.position (Binary64.pwc_pose (Binary64.odom_pose odom_robot)))
                     (Binary64.position pose_goal)))
               0 0)
            (Binary64.mkVector3 0 0
               (Binary64.limit_steering
                  (Binary64.steering_raw
                     (Binary64.steeringLocals atan atan2 getYaw P odom_robot pose_goal))))).
  cbn [Binary64.linear Binary64.angular Binary64.Vector3_x Binary64.Vector3_y
       Binary64.Vector3_z].
  split.
  - destruct (is_nan (Binary64.steering_raw
                        (Binary64.steeringLocals atan atan2 getYaw P odom_robot pose_goal)))
      eqn:Hraw.
    + left. rewrite b64_limit_steering_nan; exact Hraw.
    + right. apply b64_limit_steering_within. exact Hraw.
  - split; [|repeat split; reflexivity].
    intros Hmax. apply b64_computeThrottle_le_max. exact Hmax.
Qed.

End Binary64Steering.

(** C1 fails on the code: for no [atan] that returns NaN on NaN, and no
    [atan2] and [getYaw], is the steering within [-0.5, 0.5] with
    [ROBOT_LENGTH] 0, the vehicle at the origin and the goal at x = 1e200. *)
Lemma binary64_computeSteering_escapes_limit :
  ~ (exists (atan : float -> float) (atan2 : float -> float -> float)
            (getYaw : Binary64.Quaternion -> float),
       Binary64.propagates_nan atan
       /\ Binary64.within_limit
            (Binary64.value
               (Binary64.computeSteering atan atan2 getYaw Binary64.params_zero_length
                  Binary64.odom_origin Binary64.goal_far))).
Proof.
  intros (atan & atan2 & getYaw & Hatan & Hlo & Hhi).
  apply b64_leb_not_nan in Hhi. destruct Hhi as [Hnum _].
  rewrite (binary64_steering_nan_zero_length atan atan2 getYaw Hatan) in Hnum.
  discriminate Hnum.
Qed.

Lemma binary64_computeSteering_within_limit_witness :
  Binary64.within_limit
    (Binary64.value
       (Binary64.computeSteering Binary64.atan_at_zero Binary64.atan2_at_zero
          Binary64.yaw_zero Binary64.params_demo Binary64.odom_origin
          Binary64.goal_at_origin))
  /\ Binary64.limit_steering 2 = 0.5%float
  /\ Binary64.limit_steering (-3) = (-0.5)%float.
Proof.
  destruct (binary64_computeSteering_within_limit Binary64.atan_at_zero
              Binary64.atan2_at_zero Binary64.yaw_zero Binary64.params_demo
              Binary64.odom_origin Binary64.goal_at_origin)
    as (_ & Hin & _ & _ & Habove & Hbelow).
  split; [apply Hin; reflexivity|].
  split; [apply Habove | apply Hbelow]; reflexivity.
Defined.

Lemma binary64_computeThrottle_at_most_max_witness :
  (Binary64.computeThrottle Binary64.params_demo nan <=? 1)%float = true
  /\ is_nan (Binary64.computeThrottle Binary64.params_demo nan) = false.
Proof.
  apply (binary64_computeThrottle_at_most_max Binary64.params_demo nan). reflexivity.
Defined.
